(** * dynamodb-local-testcontainers-go: the fixture's contract, verified

    A shallow embedding of the package [dynamodblocal]
    ([dynamodb.go], [dynamodb_local_endpoint_resolver.go]) and the
    properties of its launch options, connection string, client factory
    and endpoint override.

    Conventions of the embedding.
    - A Go result pair [(v, err)] is a Rocq pair whose second component is
      [option error]; [None] is Go's [nil].
    - An interface value or a pointer result that may be [nil] is an
      [option]; the receiver of a method is the pointee itself.
    - A call of a method through a [nil] interface panics; [go A] is a
      computation that returns an [A] or panics.
    - The option functions mutate the request through a pointer; here they
      map the request before the call to the request after it.
    - What lives in the libraries the package imports (testcontainers,
      go-connections, the AWS SDK) is taken as a parameter: the
      [Container] interface as a type class, the free functions as the
      fields of [Libraries]. *)

From stdpp Require Import base numbers option list strings.
From stdpp Require Import gmap.

Open Scope string_scope.
Open Scope list_scope.

(** ** Go values shared by the whole package *)

(** [error]: a message ([errors.New]) or an error wrapped under a new
    message ([fmt.Errorf] with [%w]). *)
Inductive error : Type :=
| errorString (s : string)
| wrapError (msg : string) (err : error).

(** [context.Context], as far as a callee can observe it: the background
    context never ends; a derived context may have been cancelled or may
    have run past its deadline. *)
Inductive Context : Type :=
| Background
| WithCancel (parent : Context) (canceled : bool)
| WithDeadline (parent : Context) (exceeded : bool).

Definition Canceled : error := errorString "context canceled".
Definition DeadlineExceeded : error := errorString "context deadline exceeded".

(** [ctx.Err()] *)
Fixpoint Err (ctx : Context) : option error :=
  match ctx with
  | Background => None
  | WithCancel parent canceled =>
      match Err parent with
      | Some e => Some e
      | None => if canceled then Some Canceled else None
      end
  | WithDeadline parent exceeded =>
      match Err parent with
      | Some e => Some e
      | None => if exceeded then Some DeadlineExceeded else None
      end
  end.

(** A computation that returns or panics; sequencing stops at the first
    panic. *)
Inductive go (A : Type) : Type :=
| Return (a : A)
| Panic.
Arguments Return {A} a.
Arguments Panic {A}.

#[global] Instance go_ret : MRet go := fun A a => Return a.
#[global] Instance go_bind : MBind go := fun A B k m =>
  match m with
  | Return a => k a
  | Panic => Panic
  end.

(** ** The slice of the libraries' data the package touches *)

(** [nat.Port], a string such as ["8000/tcp"]. *)
Definition nat_Port : Type := string.

(** [wait.Strategy]; the package builds one kind only. *)
Inductive wait_Strategy : Type :=
| ForListeningPort (p : nat_Port).

(** [testcontainers.ContainerRequest] *)
Record ContainerRequest : Type := {
  Image : string;
  Entrypoint : list string;
  ExposedPorts : list string;
  Cmd : list string;
  Name : string;
  WaitingFor : option wait_Strategy
}.

(** [testcontainers.GenericContainerRequest]; it embeds the container
    request, whose fields Go promotes ([req.Cmd], [req.Name]). *)
Record GenericContainerRequest : Type := {
  Request : ContainerRequest;
  Started : bool;
  Reuse : bool
}.

Definition req_Cmd (req : GenericContainerRequest) : list string :=
  Cmd (Request req).
Definition req_Name (req : GenericContainerRequest) : string :=
  Name (Request req).

(** [req.Cmd = v] *)
Definition set_Cmd (v : list string) (req : GenericContainerRequest)
  : GenericContainerRequest :=
  {| Request :=
       {| Image := Image (Request req);
          Entrypoint := Entrypoint (Request req);
          ExposedPorts := ExposedPorts (Request req);
          Cmd := v;
          Name := Name (Request req);
          WaitingFor := WaitingFor (Request req) |};
     Started := Started req;
     Reuse := Reuse req |}.

(** [req.Name = v] *)
Definition set_Name (v : string) (req : GenericContainerRequest)
  : GenericContainerRequest :=
  {| Request :=
       {| Image := Image (Request req);
          Entrypoint := Entrypoint (Request req);
          ExposedPorts := ExposedPorts (Request req);
          Cmd := Cmd (Request req);
          Name := v;
          WaitingFor := WaitingFor (Request req) |};
     Started := Started req;
     Reuse := Reuse req |}.

(** [req.Reuse = v] *)
Definition set_Reuse (v : bool) (req : GenericContainerRequest)
  : GenericContainerRequest :=
  {| Request := Request req; Started := Started req; Reuse := v |}.

(** [testcontainers.CustomizeRequestOption], and the
    [ContainerCustomizer] it implements by calling itself. *)
Definition CustomizeRequestOption : Type :=
  GenericContainerRequest -> GenericContainerRequest.

(** ** dynamodb.go: constants and launch options *)

Definition image : string := "amazon/dynamodb-local:2.2.1".
Definition port : nat_Port := "8000/tcp".
Definition containerName : string := "dynamodb_local".

(** [WithSharedDB] allows container reuse between successive runs. *)
Definition WithSharedDB : CustomizeRequestOption := fun req =>
  let req :=
    if bool_decide (0 < length (req_Cmd req))
    then set_Cmd (req_Cmd req ++ ["-sharedDb"]) req
    else set_Cmd (req_Cmd req ++ ["-jar"; "DynamoDBLocal.jar"; "-sharedDb"]) req in
  let req := set_Name containerName req in
  set_Reuse true req.

(** [WithTelemetryDisabled]: DynamoDB local will not send any telemetry. *)
Definition WithTelemetryDisabled : CustomizeRequestOption := fun req =>
  if bool_decide (0 < length (req_Cmd req))
  then set_Cmd (req_Cmd req ++ ["-disableTelemetry"]) req
  else set_Cmd (req_Cmd req ++ ["-jar"; "DynamoDBLocal.jar"; "-disableTelemetry"]) req.

(** The loop of [RunContainer]:
    [for _, opt := range opts { opt.Customize(&genericContainerReq) }] *)
Fixpoint customizeAll (opts : list CustomizeRequestOption)
  (req : GenericContainerRequest) : GenericContainerRequest :=
  match opts with
  | [] => req
  | opt :: rest => customizeAll rest (opt req)
  end.

(** The request [RunContainer] starts from. *)
Definition baseRequest : GenericContainerRequest :=
  {| Request :=
       {| Image := image;
          Entrypoint := [];
          ExposedPorts := [port];
          Cmd := [];
          Name := "";
          WaitingFor := Some (ForListeningPort port) |};
     Started := true;
     Reuse := false |}.

(** ** dynamodb_local_endpoint_resolver.go *)

(** [url.URL]; the resolver sets [Scheme] and [Host] and leaves the rest
    at its zero value. *)
Record url_URL : Type := {
  Scheme : string;
  Opaque : string;
  URL_Host : string;
  Path : string;
  RawQuery : string;
  Fragment : string
}.

(** [smithyendpoints.Endpoint] *)
Record smithyendpoints_Endpoint : Type := {
  URI : url_URL;
  Headers : list (string * list string);
  Properties : list (string * string)
}.

(** [dynamodb.EndpointParameters]; every field is a pointer. *)
Record dynamodb_EndpointParameters : Type := {
  Region : option string;
  UseDualStack : option bool;
  UseFIPS : option bool;
  Endpoint : option string
}.

Record DynamoDBLocalResolver : Type := {
  hostAndPort : string
}.

Definition ResolveEndpoint (r : DynamoDBLocalResolver) (ctx : Context)
  (params : dynamodb_EndpointParameters)
  : smithyendpoints_Endpoint * option error :=
  ({| URI := {| Scheme := "http"; Opaque := ""; URL_Host := hostAndPort r;
                Path := ""; RawQuery := ""; Fragment := "" |};
      Headers := [];
      Properties := [] |},
   None).

(** ** The libraries' operations the package calls *)

(** The methods of the interface [testcontainers.Container] that the
    package calls. Each reads the state of the container [c] stands for
    when the call is made. *)
Class testcontainers_Container (C : Type) : Type := {
  MappedPort : C -> Context -> nat_Port -> nat_Port * option error;
  Host : C -> Context -> string * option error
}.

(** [aws.Credentials] and [credentials.StaticCredentialsProvider] *)
Record aws_Credentials : Type := {
  AccessKeyID : string;
  SecretAccessKey : string
}.

Record StaticCredentialsProvider : Type := {
  Value : aws_Credentials
}.

(** The one load option and the one client option the package builds. *)
Inductive config_LoadOption : Type :=
| WithCredentialsProvider (v : StaticCredentialsProvider).

Inductive dynamodb_Option : Type :=
| WithEndpointResolverV2 (v : DynamoDBLocalResolver).

(** The free functions of the imported libraries:
    [nat.Port.Port], [testcontainers.GenericContainer],
    [config.LoadDefaultConfig] and [dynamodb.NewFromConfig]. *)
Record Libraries (C Config Client : Type) : Type := {
  Port_Port : nat_Port -> string;
  GenericContainer : Context -> GenericContainerRequest ->
                     option C * option error;
  LoadDefaultConfig : Context -> list config_LoadOption ->
                      Config * option error;
  NewFromConfig : Config -> list dynamodb_Option -> Client
}.
Arguments Port_Port {C Config Client} _ _.
Arguments GenericContainer {C Config Client} _ _ _.
Arguments LoadDefaultConfig {C Config Client} _ _ _.
Arguments NewFromConfig {C Config Client} _ _ _.

(** ** dynamodb.go: the container handle and its methods *)

(** [DynamodbLocalContainer] embeds the interface
    [testcontainers.Container]. *)
Record DynamodbLocalContainer (C : Type) : Type := {
  Container : option C
}.
Arguments Container {C} _.

Section Fixture.
Context {C Config Client : Type}.
Context `{!testcontainers_Container C}.
Variable lib : Libraries C Config Client.

(** [c.MappedPort(ctx, port)] and [c.Host(ctx)], promoted from the
    embedded interface. *)
Definition c_MappedPort (c : DynamodbLocalContainer C) (ctx : Context)
  (p : nat_Port) : go (nat_Port * option error) :=
  match Container c with
  | Some k => Return (MappedPort k ctx p)
  | None => Panic
  end.

Definition c_Host (c : DynamodbLocalContainer C) (ctx : Context)
  : go (string * option error) :=
  match Container c with
  | Some k => Return (Host k ctx)
  | None => Panic
  end.

(** [RunContainer] creates an instance of the dynamodb container type. *)
Definition RunContainer (ctx : Context) (opts : list CustomizeRequestOption)
  : option (DynamodbLocalContainer C) * option error :=
  let genericContainerReq := customizeAll opts baseRequest in
  let '(container, err) := GenericContainer lib ctx genericContainerReq in
  match err with
  | Some e => (None, Some e)
  | None => (Some {| Container := container |}, None)
  end.

(** [ConnectionString] returns the endpoint host and port in
    [<host>:<port>] format. *)
Definition ConnectionString (c : DynamodbLocalContainer C) (ctx : Context)
  : go (string * option error) :=
  '(mappedPort, err) ← c_MappedPort c ctx port;
  match err with
  | Some e => mret ("", Some e)
  | None =>
      '(hostIP, err) ← c_Host c ctx;
      match err with
      | Some e => mret ("", Some e)
      | None =>
          let uri := hostIP +:+ ":" +:+ Port_Port lib mappedPort in
          mret (uri, None)
      end
  end.

Definition GetDynamoDBClient (c : DynamodbLocalContainer C) (ctx : Context)
  : go (option Client * option error) :=
  '(hostAndPort, err) ← ConnectionString c Background;
  match err with
  | Some e => mret (None, Some e)
  | None =>
      let '(cfg, err) :=
        LoadDefaultConfig lib Background
          [WithCredentialsProvider
             {| Value := {| AccessKeyID := "DUMMYIDEXAMPLE";
                            SecretAccessKey := "DUMMYEXAMPLEKEY" |} |}] in
      match err with
      | Some e => mret (None, Some e)
      | None =>
          mret (Some (NewFromConfig lib cfg
                        [WithEndpointResolverV2
                           {| hostAndPort := hostAndPort |}]),
                None)
      end
  end.
End Fixture.

(** ** Vocabulary of the statements *)

(** The two launch options by name, the flag each one adds, and the
    function of [dynamodb.go] each one stands for. *)
Inductive launchOption : Type :=
| SharedDB
| TelemetryDisabled.

Definition flagOf (k : launchOption) : string :=
  match k with
  | SharedDB => "-sharedDb"
  | TelemetryDisabled => "-disableTelemetry"
  end.

Definition customizerOf (k : launchOption) : CustomizeRequestOption :=
  match k with
  | SharedDB => WithSharedDB
  | TelemetryDisabled => WithTelemetryDisabled
  end.

(** The base command invocation. *)
Definition jarInvocation : list string := ["-jar"; "DynamoDBLocal.jar"].

(** The command a first flag is appended to: the flags already there, or
    the base invocation when there are none. *)
Definition commandBase (cmd : list string) : list string :=
  match cmd with
  | [] => jarInvocation
  | _ :: _ => cmd
  end.

(** How many times a flag occurs in a command. *)
Definition occurrences (flag : string) (cmd : list string) : nat :=
  length (filter (λ x, x = flag) cmd).

(** ** A test double of the libraries

    A container with a running flag and a table of port bindings, and
    library functions that honour the context they are given. The
    statements below quantify over every implementation; this one
    instantiates them. *)
Module Stub.

Record DockerContainer : Type := {
  running : bool;
  hostIP : string;
  bindings : list (nat_Port * nat_Port)
}.

Definition notRunning : error := errorString "container is not running".
Definition portNotFound : error := errorString "port not found".
Definition noImage : error := errorString "create container: no image".

Fixpoint binding (p : nat_Port) (bs : list (nat_Port * nat_Port))
  : option nat_Port :=
  match bs with
  | [] => None
  | (q, m) :: rest => if String.eqb p q then Some m else binding p rest
  end.

#[global] Instance docker : testcontainers_Container DockerContainer := {|
  MappedPort k ctx p :=
    match Err ctx with
    | Some e => ("", Some e)
    | None =>
        if running k then
          match binding p (bindings k) with
          | Some m => (m, None)
          | None => ("", Some portNotFound)
          end
        else ("", Some notRunning)
    end;
  Host k ctx :=
    match Err ctx with
    | Some e => ("", Some e)
    | None => (hostIP k, None)
    end
|}.

(** The port number of a port: what stands before the slash. *)
Fixpoint portNumber (p : nat_Port) : string :=
  match p with
  | EmptyString => ""
  | String a rest =>
      if Ascii.eqb a (Ascii.ascii_of_nat 47) then "" else String a (portNumber rest)
  end.

Definition started : DockerContainer :=
  {| running := true; hostIP := "localhost";
     bindings := [("8000/tcp", "32768/tcp")] |}.

Definition stopped : DockerContainer :=
  {| running := false; hostIP := "localhost"; bindings := [] |}.

Definition lib
  : Libraries DockerContainer (list config_LoadOption)
      (list config_LoadOption * list dynamodb_Option) :=
  {| Port_Port := portNumber;
     GenericContainer ctx req :=
       match Err ctx with
       | Some e => (None, Some e)
       | None =>
           if String.eqb (Image (Request req)) ""
           then (None, Some noImage)
           else if Started req
                then (Some started, None)
                else (Some stopped, None)
       end;
     LoadDefaultConfig ctx opts :=
       match Err ctx with
       | Some e => ([], Some e)
       | None => (opts, None)
       end;
     NewFromConfig cfg opts := (cfg, opts) |}.

Definition canceledCtx : Context := WithCancel Background true.

Definition emptyRequest : GenericContainerRequest :=
  {| Request :=
       {| Image := ""; Entrypoint := []; ExposedPorts := []; Cmd := [];
          Name := ""; WaitingFor := None |};
     Started := false;
     Reuse := false |}.

Definition noParams : dynamodb_EndpointParameters :=
  {| Region := None; UseDualStack := None; UseFIPS := None;
     Endpoint := None |}.

Definition someParams : dynamodb_EndpointParameters :=
  {| Region := Some "us-east-1"; UseDualStack := Some false;
     UseFIPS := Some true; Endpoint := Some "https://example.test" |}.

End Stub.

#[global] Instance launchOption_eq_dec : EqDecision launchOption.
Proof. solve_decision. Defined.

(** ** dynamodb_test.go: the item query of the tests *)

Definition tableName : string := "demo_table".
Definition pkColumnName : string := "demo_pk".

(** [types.AttributeValue], the union of the attribute values; each
    member holds its [Value]. *)
#[local] Unset Elimination Schemes.
Inductive AttributeValue : Type :=
| AttributeValueMemberB (v : string)
| AttributeValueMemberBOOL (v : bool)
| AttributeValueMemberBS (v : list string)
| AttributeValueMemberL (v : list AttributeValue)
| AttributeValueMemberM (v : gmap string AttributeValue)
| AttributeValueMemberN (v : string)
| AttributeValueMemberNS (v : list string)
| AttributeValueMemberNULL (v : bool)
| AttributeValueMemberS (v : string)
| AttributeValueMemberSS (v : list string).
#[local] Set Elimination Schemes.

(** [dynamodb.GetItemInput] and [dynamodb.GetItemOutput], the fields the
    query touches. *)
Record GetItemInput : Type := {
  TableName : option string;
  Key : gmap string AttributeValue
}.

Record GetItemOutput : Type := {
  Item : gmap string AttributeValue
}.

(** [client.GetItem], the one operation of [*dynamodb.Client] the query
    calls. *)
Class dynamodb_GetItemAPI (Client : Type) : Type := {
  GetItem :
    Client -> Context -> GetItemInput -> option GetItemOutput * option error
}.

(** [queryItem]: the type assertion on [output.Item[pkColumnName]] has no
    second result, so it panics on a missing attribute and on a member
    other than [S]; so does the field access through a nil output. *)
Definition queryItem {Client : Type} `{!dynamodb_GetItemAPI Client}
  (client : Client) (val : string) : go (string * option error) :=
  let '(output, err) :=
    GetItem client Background
      {| TableName := Some tableName;
         Key := {[ pkColumnName := AttributeValueMemberS val ]} |} in
  match err with
  | Some e => mret ("", Some e)
  | None =>
      match output with
      | None => Panic
      | Some out =>
          match Item out !! pkColumnName with
          | Some (AttributeValueMemberS v) => mret (v, None)
          | _ => Panic
          end
      end
  end.

(** ** More test doubles *)

(** Libraries that fail: the container is created but does not start, and
    no configuration can be loaded. *)
Module Faulty.

Definition startFailed : error :=
  wrapError "failed to start container" (errorString "exit status 1").
Definition noConfig : error := errorString "failed to load configuration".

Definition lib
  : Libraries Stub.DockerContainer (list config_LoadOption)
      (list config_LoadOption * list dynamodb_Option) :=
  {| Port_Port := Stub.portNumber;
     GenericContainer ctx req := (Some Stub.stopped, Some startFailed);
     LoadDefaultConfig ctx opts := ([], Some noConfig);
     NewFromConfig cfg opts := (cfg, opts) |}.

End Faulty.

(** A table that holds the key values put into it: a query of a held
    value returns its item, a query of another value returns no item. *)
Module Table.

Record client : Type := {
  held : list string;
  outage : option error
}.

Definition badKey : error := errorString "ValidationException".

#[global] Instance api : dynamodb_GetItemAPI client := {|
  GetItem t ctx input :=
    match outage t with
    | Some e => (None, Some e)
    | None =>
        match Key input !! pkColumnName with
        | Some (AttributeValueMemberS v) =>
            if bool_decide (v ∈ held t)
            then (Some {| Item := {[ pkColumnName :=
                                       AttributeValueMemberS v ]} |}, None)
            else (Some {| Item := ∅ |}, None)
        | _ => (None, Some badKey)
        end
    end
|}.

End Table.

(** * Properties *)

(** Runs the sequencing of [go] on the goal. *)
Ltac go_simpl := unfold mbind, go_bind, mret, go_ret; simpl.

(** ** Launch options *)

Section Options.
Implicit Types (req : GenericContainerRequest) (k : launchOption).
Implicit Types (ks : list launchOption) (cmd : list string).

Example shared_then_telemetry :
  req_Cmd (customizeAll [WithSharedDB; WithTelemetryDisabled] baseRequest)
  = ["-jar"; "DynamoDBLocal.jar"; "-sharedDb"; "-disableTelemetry"].
Proof. reflexivity. Qed.

Example telemetry_then_shared :
  req_Cmd (customizeAll [WithTelemetryDisabled; WithSharedDB] baseRequest)
  = ["-jar"; "DynamoDBLocal.jar"; "-disableTelemetry"; "-sharedDb"].
Proof. reflexivity. Qed.

Lemma commandBase_nil : commandBase [] = jarInvocation.
Proof. reflexivity. Qed.

Lemma commandBase_nonempty cmd : cmd ≠ [] → commandBase cmd = cmd.
Proof. by destruct cmd. Qed.

Lemma commandBase_app cmd flags :
  flags ≠ [] → commandBase (cmd ++ flags) = cmd ++ flags.
Proof.
  intros Hne. apply commandBase_nonempty.
  intros [_ ?]%app_eq_nil. done.
Qed.

Lemma commandBase_idemp cmd : commandBase (commandBase cmd) = commandBase cmd.
Proof. by destruct cmd. Qed.

(** The branch on [len(req.Cmd) > 0], read on the list. *)
Lemma len_positive cmd : bool_decide (0 < length cmd) = true ↔ cmd ≠ [].
Proof.
  rewrite bool_decide_eq_true. destruct cmd; simpl; split; try done.
  - lia.
  - intros _. lia.
Qed.

(** Both options change the command in the same way, each with its own
    flag. *)
Lemma customizer_Cmd k req :
  req_Cmd (customizerOf k req) = commandBase (req_Cmd req) ++ [flagOf k].
Proof.
  destruct k; unfold customizerOf, WithSharedDB, WithTelemetryDisabled;
    destruct (req_Cmd req) as [|f cmd] eqn:Hcmd; reflexivity.
Qed.

Lemma WithSharedDB_Cmd req :
  req_Cmd (WithSharedDB req) = commandBase (req_Cmd req) ++ ["-sharedDb"].
Proof. exact (customizer_Cmd SharedDB req). Qed.

Lemma WithTelemetryDisabled_Cmd req :
  req_Cmd (WithTelemetryDisabled req)
  = commandBase (req_Cmd req) ++ ["-disableTelemetry"].
Proof. exact (customizer_Cmd TelemetryDisabled req). Qed.

Lemma customizer_Cmd_nonempty k req : req_Cmd (customizerOf k req) ≠ [].
Proof.
  rewrite customizer_Cmd. intros [_ ?]%app_eq_nil. done.
Qed.

(** A run of options: the flags follow the base in the order of the
    options. *)
Lemma customizeAll_Cmd ks req :
  req_Cmd (customizeAll (customizerOf <$> ks) req)
  = match ks with
    | [] => req_Cmd req
    | _ :: _ => commandBase (req_Cmd req) ++ (flagOf <$> ks)
    end.
Proof.
  revert req. induction ks as [|k ks IH]; intros req; [done|].
  simpl. rewrite IH, customizer_Cmd. destruct ks as [|k' ks]; [done|].
  rewrite commandBase_app by done. by rewrite <- app_assoc.
Qed.

Lemma customizeAll_app (opts1 opts2 : list CustomizeRequestOption) req :
  customizeAll (opts1 ++ opts2) req
  = customizeAll opts2 (customizeAll opts1 req).
Proof.
  revert req. induction opts1 as [|o opts1 IH]; intros req; [done|].
  simpl. apply IH.
Qed.

Lemma customizeAll_fold (opts : list CustomizeRequestOption) req :
  customizeAll opts req = fold_left (λ r opt, opt r) opts req.
Proof. revert req. induction opts as [|o opts IH]; intros req; simpl; auto. Qed.

Lemma occurrences_app flag cmd1 cmd2 :
  occurrences flag (cmd1 ++ cmd2)
  = occurrences flag cmd1 + occurrences flag cmd2.
Proof. unfold occurrences. by rewrite filter_app, length_app. Qed.

Lemma occurrences_commandBase k cmd :
  occurrences (flagOf k) (commandBase cmd) = occurrences (flagOf k) cmd.
Proof. destruct cmd as [|f cmd]; [by destruct k | done]. Qed.

Lemma occurrences_flag k : occurrences (flagOf k) [flagOf k] = 1.
Proof. by destruct k. Qed.

End Options.

(** C5. For every launch configuration, [WithSharedDB] appends the flag
    ["-sharedDb"] to the command (after the flags already there, or after
    the base invocation when there are none), sets the name of the request
    to the fixed container name ["dynamodb_local"] and sets [Reuse] to
    true. *)
Theorem WithSharedDB_effect (req : GenericContainerRequest) :
  req_Cmd (WithSharedDB req) = commandBase (req_Cmd req) ++ ["-sharedDb"]
  ∧ last (req_Cmd (WithSharedDB req)) = Some "-sharedDb"
  ∧ req_Cmd req `prefix_of` req_Cmd (WithSharedDB req)
  ∧ req_Name (WithSharedDB req) = "dynamodb_local"
  ∧ Reuse (WithSharedDB req) = true.
Proof.
  rewrite WithSharedDB_Cmd. repeat split.
  - apply last_snoc.
  - destruct (req_Cmd req) as [|f cmd].
    + apply prefix_nil.
    + by apply prefix_app_r.
Qed.

(** C3. Applied to a request with no command, each option initializes the
    base invocation ["-jar"; "DynamoDBLocal.jar"] and puts its flag after
    it; applied to a request that has a command, each option appends its
    flag only, and every element of the command stays where it was. *)
Theorem first_flag_initializes_later_flag_appends
  (req : GenericContainerRequest) :
  (req_Cmd req = [] →
     req_Cmd (WithSharedDB req) = ["-jar"; "DynamoDBLocal.jar"; "-sharedDb"]
     ∧ req_Cmd (WithTelemetryDisabled req)
       = ["-jar"; "DynamoDBLocal.jar"; "-disableTelemetry"])
  ∧ (req_Cmd req ≠ [] →
       req_Cmd (WithSharedDB req) = req_Cmd req ++ ["-sharedDb"]
       ∧ req_Cmd (WithTelemetryDisabled req)
         = req_Cmd req ++ ["-disableTelemetry"]
       ∧ ∀ (i : nat) (x : string),
           req_Cmd req !! i = Some x →
           req_Cmd (WithSharedDB req) !! i = Some x
           ∧ req_Cmd (WithTelemetryDisabled req) !! i = Some x).
Proof.
  rewrite WithSharedDB_Cmd, WithTelemetryDisabled_Cmd. split.
  - intros ->. done.
  - intros Hne. rewrite (commandBase_nonempty _ Hne).
    repeat split; by apply lookup_app_l_Some.
Qed.

Lemma first_flag_initializes_later_flag_appends_witness :
  req_Cmd (WithSharedDB baseRequest)
  = ["-jar"; "DynamoDBLocal.jar"; "-sharedDb"]
  ∧ req_Cmd (WithTelemetryDisabled (WithSharedDB baseRequest))
    = ["-jar"; "DynamoDBLocal.jar"; "-sharedDb"] ++ ["-disableTelemetry"].
Proof.
  split.
  - apply (first_flag_initializes_later_flag_appends baseRequest).
    reflexivity.
  - apply (first_flag_initializes_later_flag_appends
             (WithSharedDB baseRequest)).
    discriminate.
Defined.

(** C2. Applying the same option twice is not idempotent: after
    [WithSharedDB] twice (or [WithTelemetryDisabled] twice) the command
    ends in the option's flag two times, so the flag occurs two more times
    than before and the request differs from the one after a single
    application; and the flags of a run of options stand in the command in
    the order in which the options were applied. *)
Theorem same_option_twice_duplicates_flag (req : GenericContainerRequest) :
  (req_Cmd (WithSharedDB (WithSharedDB req))
   = commandBase (req_Cmd req) ++ ["-sharedDb"; "-sharedDb"]
   ∧ occurrences "-sharedDb" (req_Cmd (WithSharedDB (WithSharedDB req)))
     = 2 + occurrences "-sharedDb" (req_Cmd req)
   ∧ WithSharedDB (WithSharedDB req) ≠ WithSharedDB req)
  ∧ (req_Cmd (WithTelemetryDisabled (WithTelemetryDisabled req))
     = commandBase (req_Cmd req) ++ ["-disableTelemetry"; "-disableTelemetry"]
     ∧ occurrences "-disableTelemetry"
         (req_Cmd (WithTelemetryDisabled (WithTelemetryDisabled req)))
       = 2 + occurrences "-disableTelemetry" (req_Cmd req)
     ∧ WithTelemetryDisabled (WithTelemetryDisabled req)
       ≠ WithTelemetryDisabled req)
  ∧ (∀ (k : launchOption) (ks : list launchOption),
       req_Cmd (customizeAll (customizerOf <$> k :: ks) req)
       = commandBase (req_Cmd req) ++ (flagOf <$> k :: ks)).
Proof.
  assert (Htwice : ∀ k,
    req_Cmd (customizerOf k (customizerOf k req))
    = commandBase (req_Cmd req) ++ [flagOf k; flagOf k]).
  { intros k. rewrite (customizer_Cmd k (customizerOf k req)).
    rewrite (customizer_Cmd k req), commandBase_app by done.
    by rewrite <- app_assoc. }
  assert (Hcount : ∀ k,
    occurrences (flagOf k) (req_Cmd (customizerOf k (customizerOf k req)))
    = 2 + occurrences (flagOf k) (req_Cmd req)).
  { intros k. rewrite Htwice, occurrences_app, occurrences_commandBase.
    change [flagOf k; flagOf k] with ([flagOf k] ++ [flagOf k]).
    rewrite occurrences_app, occurrences_flag. lia. }
  assert (Hne : ∀ k,
    customizerOf k (customizerOf k req) ≠ customizerOf k req).
  { intros k Heq. apply (f_equal req_Cmd) in Heq.
    rewrite Htwice, customizer_Cmd in Heq.
    apply (f_equal length) in Heq. rewrite !length_app in Heq.
    simpl in Heq. lia. }
  split; [|split].
  - exact (conj (Htwice SharedDB) (conj (Hcount SharedDB) (Hne SharedDB))).
  - exact (conj (Htwice TelemetryDisabled)
             (conj (Hcount TelemetryDisabled) (Hne TelemetryDisabled))).
  - intros k ks. apply (customizeAll_Cmd (k :: ks)).
Qed.

(** C4. The two options commute up to the order of their flags: from every
    request, the two orders of application give commands that are
    permutations of each other, the same name and the same [Reuse]; the
    requests differ in nothing but the command, where the two flags stand
    in the order of application. *)
Theorem options_commute_up_to_flag_order (req : GenericContainerRequest) :
  let shared_first := WithTelemetryDisabled (WithSharedDB req) in
  let telemetry_first := WithSharedDB (WithTelemetryDisabled req) in
  req_Cmd shared_first ≡ₚ req_Cmd telemetry_first
  ∧ req_Name shared_first = req_Name telemetry_first
  ∧ Reuse shared_first = Reuse telemetry_first
  ∧ set_Cmd (req_Cmd telemetry_first) shared_first = telemetry_first
  ∧ req_Cmd shared_first
    = commandBase (req_Cmd req) ++ ["-sharedDb"; "-disableTelemetry"]
  ∧ req_Cmd telemetry_first
    = commandBase (req_Cmd req) ++ ["-disableTelemetry"; "-sharedDb"].
Proof.
  intros shared_first telemetry_first.
  assert (Hs : req_Cmd shared_first
               = commandBase (req_Cmd req) ++ ["-sharedDb"; "-disableTelemetry"]).
  { unfold shared_first.
    rewrite WithTelemetryDisabled_Cmd, WithSharedDB_Cmd.
    rewrite commandBase_app by done. by rewrite <- app_assoc. }
  assert (Ht : req_Cmd telemetry_first
               = commandBase (req_Cmd req) ++ ["-disableTelemetry"; "-sharedDb"]).
  { unfold telemetry_first.
    rewrite WithSharedDB_Cmd, WithTelemetryDisabled_Cmd.
    rewrite commandBase_app by done. by rewrite <- app_assoc. }
  split; [|split; [|split; [|split; [|split]]]]; try done.
  - rewrite Hs, Ht. apply Permutation_app_head, perm_swap.
  - unfold shared_first, telemetry_first.
    destruct req as [[img ep ports [|f cmd] name w] st ru]; reflexivity.
  - unfold shared_first, telemetry_first.
    destruct req as [[img ep ports [|f cmd] name w] st ru]; reflexivity.
  - unfold shared_first, telemetry_first.
    destruct req as [[img ep ports [|f cmd] name w] st ru]; reflexivity.
Qed.

(** C6. No option removes a flag: after [WithSharedDB], after
    [WithTelemetryDisabled] and after any run of the two options, the
    command is the command before extended at its end, so every flag that
    was there is still there, at its place. *)
Theorem flags_never_removed (req : GenericContainerRequest) :
  req_Cmd req `prefix_of` req_Cmd (WithSharedDB req)
  ∧ req_Cmd req `prefix_of` req_Cmd (WithTelemetryDisabled req)
  ∧ ∀ ks : list launchOption,
      req_Cmd req `prefix_of` req_Cmd (customizeAll (customizerOf <$> ks) req)
      ∧ req_Cmd req `sublist_of`
          req_Cmd (customizeAll (customizerOf <$> ks) req)
      ∧ req_Cmd req ⊆ req_Cmd (customizeAll (customizerOf <$> ks) req).
Proof.
  assert (Hbase : ∀ flags, req_Cmd req `prefix_of` commandBase (req_Cmd req) ++ flags).
  { intros flags. destruct (req_Cmd req) as [|f cmd].
    - apply prefix_nil.
    - by apply prefix_app_r. }
  assert (Hall : ∀ ks : list launchOption,
    req_Cmd req `prefix_of` req_Cmd (customizeAll (customizerOf <$> ks) req)).
  { intros ks. rewrite customizeAll_Cmd. destruct ks; [done|apply Hbase]. }
  split; [|split].
  - rewrite WithSharedDB_Cmd. apply Hbase.
  - rewrite WithTelemetryDisabled_Cmd. apply Hbase.
  - intros ks. pose proof (Hall ks) as Hp. split; [done|].
    split.
    + destruct Hp as [added ->]. by apply sublist_inserts_r.
    + intros x Hx. destruct Hp as [added ->]. apply elem_of_app. by left.
Qed.

(** ** Endpoint override *)

(** C1. For every stored host:port string, every context and every
    endpoint-parameters value, [ResolveEndpoint] returns a nil error and
    an endpoint whose URI has the stored string as [Host] and ["http"] as
    [Scheme]; a resolver with the same stored string gives the same
    result whatever context and parameters it is called with. *)
Theorem ResolveEndpoint_fixed (r : DynamoDBLocalResolver) (ctx : Context)
  (params : dynamodb_EndpointParameters) :
  snd (ResolveEndpoint r ctx params) = None
  ∧ URL_Host (URI (fst (ResolveEndpoint r ctx params))) = hostAndPort r
  ∧ Scheme (URI (fst (ResolveEndpoint r ctx params))) = "http"
  ∧ ∀ (r' : DynamoDBLocalResolver) (ctx' : Context)
      (params' : dynamodb_EndpointParameters),
      hostAndPort r' = hostAndPort r →
      ResolveEndpoint r' ctx' params' = ResolveEndpoint r ctx params.
Proof.
  repeat split. intros r' ctx' params' Hhost.
  unfold ResolveEndpoint. by rewrite Hhost.
Qed.

Lemma ResolveEndpoint_fixed_witness :
  ResolveEndpoint {| hostAndPort := "localhost:32768" |}
    Stub.canceledCtx Stub.someParams
  = ResolveEndpoint {| hostAndPort := "localhost:32768" |}
      Background Stub.noParams.
Proof.
  apply (ResolveEndpoint_fixed {| hostAndPort := "localhost:32768" |}
           Background Stub.noParams).
  reflexivity.
Defined.

(** ** Container handle *)

Section FixtureProperties.
Context {C Config Client : Type}.
Context `{!testcontainers_Container C}.
Variable lib : Libraries C Config Client.
Implicit Types (c : DynamodbLocalContainer C) (ctx : Context).

(** The connection string fails with the error of the first query that
    fails, and with an empty string. *)
Lemma ConnectionString_MappedPort_error c ctx mappedPort e :
  c_MappedPort c ctx port = Return (mappedPort, Some e) →
  ConnectionString lib c ctx = Return ("", Some e).
Proof. intros Hp. unfold ConnectionString. by rewrite Hp. Qed.

Lemma ConnectionString_Host_error c ctx mappedPort hostIP e :
  c_MappedPort c ctx port = Return (mappedPort, None) →
  c_Host c ctx = Return (hostIP, Some e) →
  ConnectionString lib c ctx = Return ("", Some e).
Proof. intros Hp Hh. unfold ConnectionString. by rewrite Hp, Hh. Qed.

Lemma ConnectionString_ok c ctx mappedPort hostIP :
  c_MappedPort c ctx port = Return (mappedPort, None) →
  c_Host c ctx = Return (hostIP, None) →
  ConnectionString lib c ctx
  = Return (hostIP +:+ ":" +:+ Port_Port lib mappedPort, None).
Proof. intros Hp Hh. unfold ConnectionString. by rewrite Hp, Hh. Qed.

(** A nil embedded container makes both methods panic. *)
Lemma ConnectionString_nil ctx :
  ConnectionString lib {| Container := None |} ctx = Panic.
Proof. reflexivity. Qed.

Lemma GetDynamoDBClient_nil ctx :
  GetDynamoDBClient lib {| Container := None |} ctx = Panic.
Proof. reflexivity. Qed.

(** An error of the connection string carries an empty string. *)
Lemma ConnectionString_error_empty c ctx s e :
  ConnectionString lib c ctx = Return (s, Some e) → s = "".
Proof.
  unfold ConnectionString.
  destruct (c_MappedPort c ctx port) as [[p [e1|]]|]; go_simpl;
    try congruence.
  destruct (c_Host c ctx) as [[h [e2|]]|]; go_simpl; congruence.
Qed.

(** The client factory fails with the error of the port-mapping query
    made under the background context. *)
Lemma GetDynamoDBClient_MappedPort_error c ctx mappedPort e :
  c_MappedPort c Background port = Return (mappedPort, Some e) →
  GetDynamoDBClient lib c ctx = Return (None, Some e).
Proof.
  intros Hp. unfold GetDynamoDBClient.
  by rewrite (ConnectionString_MappedPort_error _ _ _ _ Hp).
Qed.

(** On success the client is built from the loaded configuration and a
    resolver bound to the connection string. *)
Lemma GetDynamoDBClient_ok c ctx hostAndPort cfg opts :
  ConnectionString lib c Background = Return (hostAndPort, None) →
  opts = [WithCredentialsProvider
            {| Value := {| AccessKeyID := "DUMMYIDEXAMPLE";
                           SecretAccessKey := "DUMMYEXAMPLEKEY" |} |}] →
  LoadDefaultConfig lib Background opts = (cfg, None) →
  GetDynamoDBClient lib c ctx
  = Return (Some (NewFromConfig lib cfg
                    [WithEndpointResolverV2
                       {| hostAndPort := hostAndPort |}]),
            None).
Proof.
  intros Hs -> Hcfg. unfold GetDynamoDBClient. rewrite Hs. simpl.
  by rewrite Hcfg.
Qed.

(** Of the configuration loader, only what it does under the background
    context reaches the client factory. *)
Lemma GetDynamoDBClient_background_only c ctx1 ctx2
  (lib' : Libraries C Config Client) :
  Port_Port lib' = Port_Port lib →
  NewFromConfig lib' = NewFromConfig lib →
  (∀ opts, LoadDefaultConfig lib' Background opts
           = LoadDefaultConfig lib Background opts) →
  GetDynamoDBClient lib' c ctx1 = GetDynamoDBClient lib c ctx2.
Proof.
  intros Hport Hnew Hload.
  unfold GetDynamoDBClient, ConnectionString. by rewrite Hport, Hnew, Hload.
Qed.

End FixtureProperties.

Section FixtureContract.
Context {C Config Client : Type}.
Context `{!testcontainers_Container C}.
Variable lib : Libraries C Config Client.
Implicit Types (c : DynamodbLocalContainer C) (ctx : Context).

(** C8. For every container handle, [ConnectionString] queries the
    mapped port of the exposed port ["8000/tcp"] and the host; when both
    queries succeed it returns the host, a colon and the port number of
    the mapped port, with a nil error; when the port-mapping query fails,
    as it does for a stopped container, it returns the empty string and
    that error unchanged, and likewise for an error of the host
    query. *)
Theorem ConnectionString_contract c ctx :
  port = "8000/tcp"
  ∧ (∀ (mappedPort : nat_Port) (hostIP : string),
       c_MappedPort c ctx port = Return (mappedPort, None) →
       c_Host c ctx = Return (hostIP, None) →
       ConnectionString lib c ctx
       = Return (hostIP +:+ ":" +:+ Port_Port lib mappedPort, None))
  ∧ (∀ (mappedPort : nat_Port) (e : error),
       c_MappedPort c ctx port = Return (mappedPort, Some e) →
       ConnectionString lib c ctx = Return ("", Some e))
  ∧ (∀ (mappedPort : nat_Port) (hostIP : string) (e : error),
       c_MappedPort c ctx port = Return (mappedPort, None) →
       c_Host c ctx = Return (hostIP, Some e) →
       ConnectionString lib c ctx = Return ("", Some e)).
Proof.
  split; [done|]. split; [|split].
  - apply ConnectionString_ok.
  - apply ConnectionString_MappedPort_error.
  - apply ConnectionString_Host_error.
Qed.

(** C7. When resolving the connection string fails, [GetDynamoDBClient]
    returns a nil client and exactly the error that [ConnectionString]
    produced: the same value, under no wrapper. *)
Theorem GetDynamoDBClient_propagates_error c ctx (s : string) (e : error) :
  ConnectionString lib c Background = Return (s, Some e) →
  GetDynamoDBClient lib c ctx = Return (None, Some e).
Proof. intros Hs. unfold GetDynamoDBClient. by rewrite Hs. Qed.

(** C10. [GetDynamoDBClient] ignores its context argument: for the same
    container, any two contexts give the same result. *)
Theorem GetDynamoDBClient_ignores_context c (ctx1 ctx2 : Context) :
  GetDynamoDBClient lib c ctx1 = GetDynamoDBClient lib c ctx2.
Proof. reflexivity. Qed.

(** C9. [RunContainer] starts from the base request (image
    ["amazon/dynamodb-local:2.2.1"], the one exposed port ["8000/tcp"],
    a wait for that port to listen), applies the options to it in the
    order given and starts the container from the result; it returns a
    handle and a nil error when the start succeeds, and a nil handle
    with the error of the start when it fails. *)
Theorem RunContainer_contract ctx (opts : list CustomizeRequestOption) :
  Image (Request baseRequest) = "amazon/dynamodb-local:2.2.1"
  ∧ ExposedPorts (Request baseRequest) = ["8000/tcp"]
  ∧ WaitingFor (Request baseRequest) = Some (ForListeningPort "8000/tcp")
  ∧ (∀ (container : option C) (e : error),
       GenericContainer lib ctx (fold_left (λ r opt, opt r) opts baseRequest)
       = (container, Some e) →
       RunContainer lib ctx opts = (None, Some e))
  ∧ (∀ container : option C,
       GenericContainer lib ctx (fold_left (λ r opt, opt r) opts baseRequest)
       = (container, None) →
       RunContainer lib ctx opts
       = (Some {| Container := container |}, None)).
Proof.
  repeat split.
  - intros container e Hg. unfold RunContainer.
    by rewrite customizeAll_fold, Hg.
  - intros container Hg. unfold RunContainer.
    by rewrite customizeAll_fold, Hg.
Qed.

End FixtureContract.

Lemma ConnectionString_contract_witness :
  ConnectionString Stub.lib {| Container := Some Stub.started |} Background
  = Return ("localhost:32768", None)
  ∧ ConnectionString Stub.lib {| Container := Some Stub.stopped |} Background
    = Return ("", Some Stub.notRunning).
Proof.
  split.
  - destruct (ConnectionString_contract Stub.lib
                {| Container := Some Stub.started |} Background)
      as (_ & Hok & _).
    exact (Hok "32768/tcp" "localhost" eq_refl eq_refl).
  - destruct (ConnectionString_contract Stub.lib
                {| Container := Some Stub.stopped |} Background)
      as (_ & _ & Herr & _).
    exact (Herr "" Stub.notRunning eq_refl).
Defined.

Lemma GetDynamoDBClient_propagates_error_witness :
  GetDynamoDBClient Stub.lib {| Container := Some Stub.stopped |}
    Stub.canceledCtx
  = Return (None, Some Stub.notRunning).
Proof.
  apply (GetDynamoDBClient_propagates_error Stub.lib
           {| Container := Some Stub.stopped |} Stub.canceledCtx "").
  reflexivity.
Defined.

Lemma RunContainer_contract_witness :
  RunContainer Stub.lib Background [WithSharedDB; WithTelemetryDisabled]
  = (Some {| Container := Some Stub.started |}, None)
  ∧ RunContainer Stub.lib Stub.canceledCtx [WithSharedDB]
    = (None, Some Canceled).
Proof.
  split.
  - destruct (RunContainer_contract Stub.lib Background
                [WithSharedDB; WithTelemetryDisabled])
      as (_ & _ & _ & _ & Hok).
    exact (Hok (Some Stub.started) eq_refl).
  - destruct (RunContainer_contract Stub.lib Stub.canceledCtx [WithSharedDB])
      as (_ & _ & _ & Herr & _).
    exact (Herr None Canceled eq_refl).
Defined.

(** ** The test double at work *)

(** The connection string of a running container. *)
Example stub_connection_string :
  ConnectionString Stub.lib {| Container := Some Stub.started |} Background
  = Return ("localhost:32768", None).
Proof. reflexivity. Qed.

(** The queries of the test double honour a cancelled context, the client
    factory does not pass it on. *)
Example stub_connection_string_canceled :
  ConnectionString Stub.lib {| Container := Some Stub.started |}
    Stub.canceledCtx
  = Return ("", Some Canceled).
Proof. reflexivity. Qed.

Example stub_client_canceled :
  GetDynamoDBClient Stub.lib {| Container := Some Stub.started |}
    Stub.canceledCtx
  = Return
      (Some ([WithCredentialsProvider
                {| Value := {| AccessKeyID := "DUMMYIDEXAMPLE";
                               SecretAccessKey := "DUMMYEXAMPLEKEY" |} |}],
             [WithEndpointResolverV2
                {| hostAndPort := "localhost:32768" |}]),
       None).
Proof. reflexivity. Qed.

(** The request the container is started from when both options are
    given. *)
Example stub_launch_request :
  customizeAll [WithSharedDB; WithTelemetryDisabled] baseRequest
  = {| Request :=
         {| Image := "amazon/dynamodb-local:2.2.1";
            Entrypoint := [];
            ExposedPorts := ["8000/tcp"];
            Cmd := ["-jar"; "DynamoDBLocal.jar"; "-sharedDb";
                    "-disableTelemetry"];
            Name := "dynamodb_local";
            WaitingFor := Some (ForListeningPort "8000/tcp") |};
       Started := true;
       Reuse := true |}.
Proof. reflexivity. Qed.

(** * Further properties of the package *)

(** ** Runs of launch options *)

Section OptionRuns.
Implicit Types (req : GenericContainerRequest) (k : launchOption).
Implicit Types (ks : list launchOption).

Lemma customizeAll_cons k ks req :
  customizeAll (customizerOf <$> k :: ks) req
  = customizeAll (customizerOf <$> ks) (customizerOf k req).
Proof. reflexivity. Qed.

(** What a single option leaves alone. *)
Lemma customizer_frame k req :
  Image (Request (customizerOf k req)) = Image (Request req)
  ∧ Entrypoint (Request (customizerOf k req)) = Entrypoint (Request req)
  ∧ ExposedPorts (Request (customizerOf k req)) = ExposedPorts (Request req)
  ∧ WaitingFor (Request (customizerOf k req)) = WaitingFor (Request req)
  ∧ Started (customizerOf k req) = Started req.
Proof.
  destruct k; unfold customizerOf, WithSharedDB, WithTelemetryDisabled;
    case_bool_decide; done.
Qed.

Lemma customizer_Reuse k req :
  Reuse (customizerOf k req) = Reuse req || bool_decide (k = SharedDB).
Proof.
  destruct k; unfold customizerOf, WithSharedDB, WithTelemetryDisabled.
  - simpl. by rewrite orb_true_r.
  - case_bool_decide; simpl; by rewrite orb_false_r.
Qed.

Lemma customizer_Name k req :
  req_Name (customizerOf k req)
  = if bool_decide (k = SharedDB) then containerName else req_Name req.
Proof.
  destruct k; unfold customizerOf, WithSharedDB, WithTelemetryDisabled.
  - done.
  - case_bool_decide; done.
Qed.

Lemma uses_cons k ks :
  bool_decide (SharedDB ∈ k :: ks)
  = bool_decide (k = SharedDB) || bool_decide (SharedDB ∈ ks).
Proof.
  destruct k.
  - rewrite (bool_decide_eq_true_2 (SharedDB ∈ SharedDB :: ks)); [done|].
    by left.
  - simpl. apply bool_decide_ext. rewrite elem_of_cons.
    split; [intros [?|?]; done | by right].
Qed.

Lemma customizeAll_frame ks req :
  let after := customizeAll (customizerOf <$> ks) req in
  Image (Request after) = Image (Request req)
  ∧ Entrypoint (Request after) = Entrypoint (Request req)
  ∧ ExposedPorts (Request after) = ExposedPorts (Request req)
  ∧ WaitingFor (Request after) = WaitingFor (Request req)
  ∧ Started after = Started req.
Proof.
  revert req. induction ks as [|k ks IH]; intros req after; [done|].
  subst after. rewrite customizeAll_cons.
  destruct (IH (customizerOf k req)) as (-> & -> & -> & -> & ->).
  apply customizer_frame.
Qed.

Lemma customizeAll_Reuse ks req :
  Reuse (customizeAll (customizerOf <$> ks) req)
  = Reuse req || bool_decide (SharedDB ∈ ks).
Proof.
  revert req. induction ks as [|k ks IH]; intros req.
  - simpl. by rewrite orb_false_r.
  - rewrite customizeAll_cons, IH, customizer_Reuse, uses_cons.
    by rewrite orb_assoc.
Qed.

Lemma customizeAll_Name ks req :
  req_Name (customizeAll (customizerOf <$> ks) req)
  = if bool_decide (SharedDB ∈ ks) then containerName else req_Name req.
Proof.
  revert req. induction ks as [|k ks IH]; intros req; [done|].
  rewrite customizeAll_cons, IH, customizer_Name, uses_cons.
  destruct (bool_decide (k = SharedDB)), (bool_decide (SharedDB ∈ ks)); done.
Qed.

(** A request is its fields. *)
Lemma request_eta req :
  req = {| Request :=
             {| Image := Image (Request req);
                Entrypoint := Entrypoint (Request req);
                ExposedPorts := ExposedPorts (Request req);
                Cmd := req_Cmd req;
                Name := req_Name req;
                WaitingFor := WaitingFor (Request req) |};
           Started := Started req;
           Reuse := Reuse req |}.
Proof. by destruct req as [[] ? ?]. Qed.

Lemma occurrences_flags k ks :
  occurrences (flagOf k) (flagOf <$> ks) = length (filter (λ k', k' = k) ks).
Proof.
  unfold occurrences. induction ks as [|k' ks IH]; [done|].
  rewrite fmap_cons, !filter_cons.
  destruct (decide (k' = k)) as [->|Hne].
  - rewrite decide_True by done. simpl. by rewrite IH.
  - rewrite decide_False; [done|]. by destruct k, k'.
Qed.

End OptionRuns.

(** X1. A run of the two options, from any request, leaves the image, the
    entrypoint, the exposed ports, the wait strategy and [Started] as
    they were; [Reuse] is true afterwards exactly when it was true before
    or [WithSharedDB] is in the run; the name is ["dynamodb_local"] when
    [WithSharedDB] is in the run and the name before otherwise. *)
Theorem option_run_touches_Cmd_Name_Reuse_only
  (ks : list launchOption) (req : GenericContainerRequest) :
  let after := customizeAll (customizerOf <$> ks) req in
  Image (Request after) = Image (Request req)
  ∧ Entrypoint (Request after) = Entrypoint (Request req)
  ∧ ExposedPorts (Request after) = ExposedPorts (Request req)
  ∧ WaitingFor (Request after) = WaitingFor (Request req)
  ∧ Started after = Started req
  ∧ Reuse after = Reuse req || bool_decide (SharedDB ∈ ks)
  ∧ req_Name after
    = if bool_decide (SharedDB ∈ ks) then "dynamodb_local" else req_Name req.
Proof.
  intros after. subst after.
  destruct (customizeAll_frame ks req) as (? & ? & ? & ? & ?).
  repeat split; try done.
  - apply customizeAll_Reuse.
  - apply customizeAll_Name.
Qed.

(** X3. The options keep the command well formed: if the command is empty
    or starts with the base invocation ["-jar"; "DynamoDBLocal.jar"], it
    still does after any run of the two options, and after a run of at
    least one option it starts with the base invocation. *)
Theorem option_run_keeps_jar_invocation
  (ks : list launchOption) (req : GenericContainerRequest) :
  req_Cmd req = [] ∨ jarInvocation `prefix_of` req_Cmd req →
  let after := customizeAll (customizerOf <$> ks) req in
  (req_Cmd after = [] ∨ jarInvocation `prefix_of` req_Cmd after)
  ∧ (ks ≠ [] → jarInvocation `prefix_of` req_Cmd after).
Proof.
  intros Hwf after. subst after. rewrite customizeAll_Cmd.
  destruct ks as [|k ks]; [by split|].
  assert (Hp : jarInvocation `prefix_of`
                 commandBase (req_Cmd req) ++ (flagOf <$> k :: ks)).
  { apply prefix_app_r. destruct Hwf as [-> | Hpre]; [done|].
    destruct (req_Cmd req); [|done].
    by apply prefix_nil_inv in Hpre. }
  split; [by right | done].
Qed.

Lemma option_run_keeps_jar_invocation_witness :
  jarInvocation `prefix_of`
    req_Cmd (customizeAll (customizerOf <$> [TelemetryDisabled; SharedDB])
               baseRequest).
Proof.
  apply (option_run_keeps_jar_invocation [TelemetryDisabled; SharedDB]
           baseRequest).
  - left. reflexivity.
  - discriminate.
Defined.

(** X4. After a run of the two options a flag occurs in the command as
    many times as before plus once for every time its option is in the
    run: n applications of an option leave n copies of its flag. *)
Theorem option_run_flag_count
  (k : launchOption) (ks : list launchOption) (req : GenericContainerRequest) :
  occurrences (flagOf k) (req_Cmd (customizeAll (customizerOf <$> ks) req))
  = occurrences (flagOf k) (req_Cmd req) + length (filter (λ k', k' = k) ks).
Proof.
  rewrite customizeAll_Cmd. destruct ks as [|k0 ks]; [simpl; lia|].
  by rewrite occurrences_app, occurrences_commandBase, occurrences_flags.
Qed.

(** ** Launch, connection string and client factory *)

Section FixtureFurther.
Context {C Config Client : Type}.
Context `{!testcontainers_Container C}.
Variable lib : Libraries C Config Client.
Implicit Types (c : DynamodbLocalContainer C) (ctx : Context).

(** The launch request of a selection of the two options. *)
Lemma launch_request (ks : list launchOption) :
  customizeAll (customizerOf <$> ks) baseRequest
  = {| Request :=
         {| Image := "amazon/dynamodb-local:2.2.1";
            Entrypoint := [];
            ExposedPorts := ["8000/tcp"];
            Cmd := match ks with
                   | [] => []
                   | _ :: _ => ["-jar"; "DynamoDBLocal.jar"] ++ (flagOf <$> ks)
                   end;
            Name := if bool_decide (SharedDB ∈ ks)
                    then "dynamodb_local" else "";
            WaitingFor := Some (ForListeningPort "8000/tcp") |};
       Started := true;
       Reuse := bool_decide (SharedDB ∈ ks) |}.
Proof.
  rewrite (request_eta (customizeAll (customizerOf <$> ks) baseRequest)).
  destruct (customizeAll_frame ks baseRequest) as (-> & -> & -> & -> & ->).
  rewrite customizeAll_Reuse, customizeAll_Name, customizeAll_Cmd.
  by destruct ks.
Qed.



(** X2. For every selection of the two options, [RunContainer] starts the
    container from one request: the fixed image, the exposed port and the
    wait for it, [Started] true; no command when no option is given,
    otherwise the base invocation followed by the flags in the order of
    the options; the fixed name and [Reuse] exactly when [WithSharedDB]
    is among the options. *)
Theorem RunContainer_launch_request ctx (ks : list launchOption) :
  RunContainer lib ctx (customizerOf <$> ks)
  = let '(container, err) :=
      GenericContainer lib ctx
        {| Request :=
             {| Image := "amazon/dynamodb-local:2.2.1";
                Entrypoint := [];
                ExposedPorts := ["8000/tcp"];
                Cmd := match ks with
                       | [] => []
                       | _ :: _ =>
                           ["-jar"; "DynamoDBLocal.jar"] ++ (flagOf <$> ks)
                       end;
                Name := if bool_decide (SharedDB ∈ ks)
                        then "dynamodb_local" else "";
                WaitingFor := Some (ForListeningPort "8000/tcp") |};
           Started := true;
           Reuse := bool_decide (SharedDB ∈ ks) |} in
    match err with
    | Some e => (None, Some e)
    | None => (Some {| Container := container |}, None)
    end.
Proof. unfold RunContainer. by rewrite launch_request. Qed.

(** X5. [RunContainer] returns a handle or an error, never both and never
    neither; a container that the library returns together with an error
    is not handed to the caller. *)
Theorem RunContainer_handle_xor_error ctx (opts : list CustomizeRequestOption) :
  (fst (RunContainer lib ctx opts) = None
   ↔ snd (RunContainer lib ctx opts) ≠ None)
  ∧ ∀ (k : C) (e : error),
      GenericContainer lib ctx (customizeAll opts baseRequest)
      = (Some k, Some e) →
      RunContainer lib ctx opts = (None, Some e).
Proof.
  unfold RunContainer.
  destruct (GenericContainer lib ctx (customizeAll opts baseRequest))
    as [container [e|]]; simpl.
  - split; [done|]. intros k e' [= _ ->]. done.
  - split; [split; done|]. intros k e' [=].
Qed.

(** X6. When the connection string is resolved and loading the
    configuration fails, [GetDynamoDBClient] returns a nil client and the
    error of the loader unchanged. *)
Theorem GetDynamoDBClient_config_error c ctx
  (s : string) (cfg : Config) (e : error) :
  ConnectionString lib c Background = Return (s, None) →
  LoadDefaultConfig lib Background
    [WithCredentialsProvider
       {| Value := {| AccessKeyID := "DUMMYIDEXAMPLE";
                      SecretAccessKey := "DUMMYEXAMPLEKEY" |} |}]
  = (cfg, Some e) →
  GetDynamoDBClient lib c ctx = Return (None, Some e).
Proof.
  intros Hs Hcfg. unfold GetDynamoDBClient. rewrite Hs. go_simpl.
  by rewrite Hcfg.
Qed.

(** X7. Whenever [GetDynamoDBClient] returns, it returns a client or an
    error, never both and never neither. *)
Theorem GetDynamoDBClient_client_xor_error c ctx
  (client : option Client) (err : option error) :
  GetDynamoDBClient lib c ctx = Return (client, err) →
  client = None ↔ err ≠ None.
Proof.
  unfold GetDynamoDBClient.
  destruct (ConnectionString lib c Background) as [[s [e|]]|]; go_simpl.
  - intros [= <- <-]. done.
  - destruct (LoadDefaultConfig lib Background _) as [cfg [e|]].
    + intros [= <- <-]. done.
    + intros [= <- <-]. split; done.
  - done.
Qed.

(** X8. The client that [GetDynamoDBClient] builds carries one option, a
    resolver that sends every request, whatever its context and
    parameters, to scheme ["http"] and to the host and port that the
    container reports under the background context. *)
Theorem GetDynamoDBClient_resolver_target c ctx
  (mappedPort : nat_Port) (hostIP : string) (cfg : Config) :
  c_MappedPort c Background port = Return (mappedPort, None) →
  c_Host c Background = Return (hostIP, None) →
  LoadDefaultConfig lib Background
    [WithCredentialsProvider
       {| Value := {| AccessKeyID := "DUMMYIDEXAMPLE";
                      SecretAccessKey := "DUMMYEXAMPLEKEY" |} |}]
  = (cfg, None) →
  ∃ r : DynamoDBLocalResolver,
    GetDynamoDBClient lib c ctx
    = Return (Some (NewFromConfig lib cfg [WithEndpointResolverV2 r]), None)
    ∧ ∀ (ctx' : Context) (params : dynamodb_EndpointParameters),
        ResolveEndpoint r ctx' params
        = ({| URI := {| Scheme := "http"; Opaque := "";
                        URL_Host := hostIP +:+ ":" +:+ Port_Port lib mappedPort;
                        Path := ""; RawQuery := ""; Fragment := "" |};
              Headers := [];
              Properties := [] |},
           None).
Proof.
  intros Hp Hh Hcfg.
  exists {| hostAndPort := hostIP +:+ ":" +:+ Port_Port lib mappedPort |}.
  split; [|done].
  unfold GetDynamoDBClient.
  rewrite (ConnectionString_ok lib c Background _ _ Hp Hh). go_simpl.
  by rewrite Hcfg.
Qed.



End FixtureFurther.

Lemma RunContainer_handle_xor_error_witness :
  RunContainer Faulty.lib Background [WithSharedDB]
  = (None, Some Faulty.startFailed).
Proof.
  destruct (RunContainer_handle_xor_error Faulty.lib Background [WithSharedDB])
    as [_ Hdrop].
  exact (Hdrop Stub.stopped Faulty.startFailed eq_refl).
Defined.

Lemma GetDynamoDBClient_config_error_witness :
  GetDynamoDBClient Faulty.lib {| Container := Some Stub.started |}
    Stub.canceledCtx
  = Return (None, Some Faulty.noConfig).
Proof.
  apply (GetDynamoDBClient_config_error Faulty.lib
           {| Container := Some Stub.started |} Stub.canceledCtx
           "localhost:32768" []); reflexivity.
Defined.

Lemma GetDynamoDBClient_client_xor_error_witness :
  (None : option (list config_LoadOption * list dynamodb_Option)) = None
  ↔ Some Stub.notRunning ≠ None.
Proof.
  apply (GetDynamoDBClient_client_xor_error Stub.lib
           {| Container := Some Stub.stopped |} Background).
  reflexivity.
Defined.

Lemma GetDynamoDBClient_resolver_target_witness :
  ∃ r : DynamoDBLocalResolver,
    GetDynamoDBClient Stub.lib {| Container := Some Stub.started |}
      Stub.canceledCtx
    = Return
        (Some ([WithCredentialsProvider
                  {| Value := {| AccessKeyID := "DUMMYIDEXAMPLE";
                                 SecretAccessKey := "DUMMYEXAMPLEKEY" |} |}],
               [WithEndpointResolverV2 r]),
         None)
    ∧ ∀ (ctx' : Context) (params : dynamodb_EndpointParameters),
        ResolveEndpoint r ctx' params
        = ({| URI := {| Scheme := "http"; Opaque := "";
                        URL_Host := "localhost:32768";
                        Path := ""; RawQuery := ""; Fragment := "" |};
              Headers := [];
              Properties := [] |},
           None).
Proof.
  exact (GetDynamoDBClient_resolver_target Stub.lib
           {| Container := Some Stub.started |} Stub.canceledCtx
           "32768/tcp" "localhost"
           [WithCredentialsProvider
              {| Value := {| AccessKeyID := "DUMMYIDEXAMPLE";
                             SecretAccessKey := "DUMMYEXAMPLEKEY" |} |}]
           eq_refl eq_refl eq_refl).
Defined.


(** ** The item query of the tests *)

Section QueryItem.
Context {Client : Type} `{!dynamodb_GetItemAPI Client}.

(** X11. [queryItem] asks for the item of table ["demo_table"] whose key
    ["demo_pk"] is the given string, under the background context. An
    error of the call is returned unchanged with the empty string; an
    item with a string under ["demo_pk"] gives that string and a nil
    error; and the query panics exactly when the call reports no error
    but returns no output, no attribute ["demo_pk"] (as for an item that
    is not in the table) or an attribute that is not a string. *)
Theorem queryItem_outcome (client : Client) (val : string) :
  let result :=
    GetItem client Background
      {| TableName := Some "demo_table";
         Key := {[ "demo_pk" := AttributeValueMemberS val ]} |} in
  (∀ (output : option GetItemOutput) (e : error),
     result = (output, Some e) →
     queryItem client val = Return ("", Some e))
  ∧ (∀ (out : GetItemOutput) (v : string),
       result = (Some out, None) →
       Item out !! "demo_pk" = Some (AttributeValueMemberS v) →
       queryItem client val = Return (v, None))
  ∧ (queryItem client val = Panic
     ↔ snd result = None
       ∧ ∀ (out : GetItemOutput) (v : string),
           fst result = Some out →
           Item out !! "demo_pk" ≠ Some (AttributeValueMemberS v)).
Proof.
  intros result. unfold queryItem, tableName, pkColumnName.
  fold result. destruct result as [[out|] [e|]]; simpl.
  - split; [by intros ? ? [= _ ->]|]. split; [by intros ? ? [=]|].
    split; [done | by intros [? _]].
  - split; [by intros ? ? [=]|]. split.
    + intros out' v [= <-] ->. done.
    + destruct (Item out !! "demo_pk") as [a|] eqn:Hitem.
      * destruct a; try (split; [intros _; split; [done|];
          intros out' v' [= <-]; rewrite Hitem; discriminate | done]).
        split; [done|]. intros [_ Hno]. by destruct (Hno out v).
      * split; [|done]. intros _. split; [done|].
        intros out' v' [= <-]. rewrite Hitem. discriminate.
  - split; [by intros ? ? [= _ ->]|]. split; [by intros ? ? [=]|].
    split; [done | by intros [? _]].
  - split; [by intros ? ? [=]|]. split; [by intros ? ? [=]|].
    split; [|done]. intros _. split; [done|]. by intros ? ? [=].
Qed.

End QueryItem.

Lemma queryItem_outcome_witness :
  queryItem {| Table.held := ["test_value"]; Table.outage := None |}
    "test_value"
  = Return ("test_value", None)
  ∧ queryItem {| Table.held := ["test_value"];
                 Table.outage := Some Table.badKey |} "test_value"
    = Return ("", Some Table.badKey).
Proof.
  split.
  - destruct (queryItem_outcome
                {| Table.held := ["test_value"]; Table.outage := None |}
                "test_value") as (_ & Hok & _).
    apply (Hok {| Item := {[ "demo_pk" :=
                               AttributeValueMemberS "test_value" ]} |}
             "test_value"); reflexivity.
  - destruct (queryItem_outcome
                {| Table.held := ["test_value"];
                   Table.outage := Some Table.badKey |}
                "test_value") as (Herr & _).
    apply (Herr None Table.badKey). reflexivity.
Defined.

(** A value that is not in the table: the call succeeds with an empty
    item and the query panics. *)
Example queryItem_missing_item :
  queryItem {| Table.held := ["test_value"]; Table.outage := None |} "other"
  = Panic.
Proof. reflexivity. Qed.
